(** * Session registry and request router of the streamable-HTTP MCP server

    A shallow embedding of the Express application of the repository
    (the server script: [app.post('/mcp')], [handleSessionRequest], the
    two callbacks [onsessioninitialized] and [onclose] it hands to the
    SDK transport, and the per-session [McpServer] with its one tool).

    The imported SDK ([StreamableHTTPServerTransport], [McpServer],
    [isInitializeRequest]) is the environment of this code: its predicate
    on request bodies is a section variable, and the moments at which it
    invokes the callbacks are events of a labelled transition system. *)

From Stdlib Require Import ZArith NArith Ascii String.
From stdpp Require Import strings gmap list.

Local Open Scope string_scope.

(** ** JavaScript objects used as dictionaries *)

Module Js.

(** A JavaScript string is falsy exactly when it is empty. *)
Definition truthy_string (s : string) : bool :=
  match s with
  | EmptyString => false
  | String _ _ => true
  end.

(** [undefined] is falsy; a string is judged by [truthy_string]. *)
Definition truthy (v : option string) : bool :=
  match v with
  | None => false
  | Some s => truthy_string s
  end.

(** The property names every object literal [{}] inherits from
    [Object.prototype]. *)
Definition Object_prototype_names : list string :=
  [ "constructor"; "hasOwnProperty"; "isPrototypeOf"; "propertyIsEnumerable";
    "toLocaleString"; "toString"; "valueOf"; "__proto__";
    "__defineGetter__"; "__defineSetter__"; "__lookupGetter__";
    "__lookupSetter__" ].

Definition inherited (k : string) : bool :=
  existsb (String.eqb k) Object_prototype_names.

(** What a property read [o[k]] on a dictionary object yields: a value the
    program stored itself, or a member of [Object.prototype] found through
    the prototype chain.  [None] stands for [undefined]. *)
Inductive value (A : Type) : Type :=
  | Own (a : A)
  | Builtin (name : string).
Arguments Own {A} a.
Arguments Builtin {A} name.

(** [o[k]] for an object created by the literal [{}] whose own properties
    are [o]: own properties first, then the prototype. *)
Definition get {A : Type} (o : gmap string A) (k : string) : option (value A) :=
  match o !! k with
  | Some a => Some (Own a)
  | None => if inherited k then Some (Builtin k) else None
  end.

(** Own properties and the members of [Object.prototype] are objects or
    functions, hence truthy; only [undefined] is falsy. *)
Definition truthy_value {A : Type} (v : option (value A)) : bool :=
  match v with
  | Some _ => true
  | None => false
  end.

End Js.

(** ** The session-id generator *)

Module Crypto.

Definition hex_digit (n : N) : ascii :=
  match (n mod 16)%N with
  | 0%N => "0" | 1%N => "1" | 2%N => "2" | 3%N => "3"
  | 4%N => "4" | 5%N => "5" | 6%N => "6" | 7%N => "7"
  | 8%N => "8" | 9%N => "9" | 10%N => "a" | 11%N => "b"
  | 12%N => "c" | 13%N => "d" | 14%N => "e" | _ => "f"
  end%char.

Definition hex_byte (b : N) (rest : string) : string :=
  String (hex_digit (b / 16)) (String (hex_digit b) rest).

(** [randomUUID()] of [node:crypto] as a function of the 16 random bytes
    it draws: an RFC 4122 version-4 UUID, printed as 8-4-4-4-12 lower-case
    hexadecimal digits.  Byte 6 carries the version, byte 8 the variant. *)
Definition randomUUID (rnd : list N) : string :=
  let b i := (nth i rnd 0 mod 256)%N in
  let b6 := N.lor (N.land (b 6%nat) 15) 64 in
  let b8 := N.lor (N.land (b 8%nat) 63) 128 in
  hex_byte (b 0%nat) (hex_byte (b 1%nat) (hex_byte (b 2%nat) (hex_byte (b 3%nat)
  (String "-" (hex_byte (b 4%nat) (hex_byte (b 5%nat)
  (String "-" (hex_byte b6 (hex_byte (b 7%nat)
  (String "-" (hex_byte b8 (hex_byte (b 9%nat)
  (String "-" (hex_byte (b 10%nat) (hex_byte (b 11%nat) (hex_byte (b 12%nat)
  (hex_byte (b 13%nat) (hex_byte (b 14%nat) (hex_byte (b 15%nat) ""))))))))))))))))))).

End Crypto.

(** ** HTTP requests and responses *)

Module Http.

(** The three verbs routed on [/mcp]. *)
Inductive method := POST | GET | DELETE.

(** JSON values, as far as the error body needs them. *)
#[warnings="-register-all"]
Inductive json :=
  | JNull
  | JNumber (z : Z)
  | JString (s : string)
  | JObject (fields : list (string * json)).

(** What the handlers read of a request: the verb, the header
    [req.headers['mcp-session-id']] ([None] when absent) and the body
    parsed by [express.json()]. *)
Record request (body : Type) := Request {
  req_method : method;
  mcp_session_id : option string;
  req_body : body
}.
Arguments Request {body} _ _ _.
Arguments req_method {body} _.
Arguments mcp_session_id {body} _.
Arguments req_body {body} _.

(** [res.status(n).json(j)] and [res.status(n).send(text)]. *)
Inductive response :=
  | Json (status : Z) (j : json)
  | Send (status : Z) (text : string).

End Http.

(** ** The server *)

Module Server.
Import Http.

(** A [StreamableHTTPServerTransport] instance, by object identity: the
    n-th transport the process constructs is the handle n. *)
Definition handle := nat.

(** The two arrow functions of the POST handler, each closed over the
    variable [transport] of the call that created it. *)
Inductive init_callback :=
  | Register_self (transport : handle).
      (* (sid) => { transports[sid] = transport; } *)

Inductive close_callback :=
  | Remove_self (transport : handle).
      (* () => { if (transport.sessionId) delete transports[transport.sessionId]; } *)

(** The fields of a transport object this program sets or reads.
    [sessionId] is written by the SDK when it mints the id. *)
Record transport_obj := Transport {
  sessionId : option string;
  onsessioninitialized : option init_callback;
  onclose : option close_callback
}.

Record tool := Tool {
  tool_name : string;
  tool_description : string;
  tool_params : list string
}.

(** An [McpServer] instance: its registered tools and the transport it
    was connected to. *)
Record mcp_server := McpServer {
  server_name : string;
  server_version : string;
  server_tools : list tool;
  server_transport : option handle
}.

(** The process state: the module-level dictionary [transports], the
    transport objects constructed so far, and the servers constructed so
    far (in order of construction). *)
Record state := State {
  transports : gmap string handle;
  objects : gmap handle transport_obj;
  servers : list mcp_server;
  allocated : nat
}.

(** Process start: [const transports = {}], nothing constructed. *)
Definition init : state :=
  {| transports := ∅; objects := ∅; servers := []; allocated := 0 |}.

Definition set_transports (f : gmap string handle → gmap string handle)
    (st : state) : state :=
  {| transports := f (transports st); objects := objects st;
     servers := servers st; allocated := allocated st |}.

Definition set_objects (f : gmap handle transport_obj → gmap handle transport_obj)
    (st : state) : state :=
  {| transports := transports st; objects := f (objects st);
     servers := servers st; allocated := allocated st |}.

(** What a handler does with a request. *)
Inductive outcome (body : Type) :=
  | Responded (r : response)
  | HandleRequest (transport : handle) (req : request body) (parsedBody : option body)
      (* await transport.handleRequest(req, res[, req.body]) *)
  | TypeError (callee : string).
      (* transport.handleRequest is not a function *)
Arguments Responded {body} r.
Arguments HandleRequest {body} transport req parsedBody.
Arguments TypeError {body} callee.

(** The fixed JSON-RPC error of the POST handler. *)
Definition no_valid_session_error : json :=
  JObject [ ("jsonrpc", JString "2.0");
            ("error", JObject [ ("code", JNumber (-32000));
                                ("message", JString "Bad Request: No valid session ID provided") ]);
            ("id", JNull) ].

Definition get_current_time_tool : tool :=
  {| tool_name := "get_current_time";
     tool_description := "Return current server time as ISO 8601 string.";
     tool_params := [] |}.

(** [server.tool(name, description, schema, handler)]. *)
Definition server_tool (t : tool) (srv : mcp_server) : mcp_server :=
  {| server_name := server_name srv; server_version := server_version srv;
     server_tools := server_tools srv ++ [t];
     server_transport := server_transport srv |}.

(** [server.connect(transport)]. *)
Definition server_connect (transport : handle) (srv : mcp_server) : mcp_server :=
  {| server_name := server_name srv; server_version := server_version srv;
     server_tools := server_tools srv;
     server_transport := Some transport |}.

(** [sessionIdGenerator: () => randomUUID()]. *)
Definition sessionIdGenerator (rnd : list N) : string := Crypto.randomUUID rnd.

(** [transports[sessionId]]; an [undefined] index is the key ["undefined"]. *)
Definition transports_at (st : state) (sessionId : option string)
    : option (Js.value handle) :=
  match sessionId with
  | Some s => Js.get (transports st) s
  | None => Js.get (transports st) "undefined"
  end.

(** [transport.handleRequest(...)] on whatever the dictionary read gave:
    a transport takes the request; a member of [Object.prototype] has no
    such method, and neither has [undefined]. *)
Definition call_handleRequest {body : Type} (transport : option (Js.value handle))
    (req : request body) (parsedBody : option body) : outcome body :=
  match transport with
  | Some (Js.Own h) => HandleRequest h req parsedBody
  | Some (Js.Builtin _) => TypeError "transport.handleRequest"
  | None => TypeError "transport.handleRequest"
  end.

(** Running the [onsessioninitialized] callback on the id [sid].  The
    assignment defines or overwrites the own property [sid]; the SDK passes
    a result of [sessionIdGenerator], never the key ["__proto__"], on
    which an assignment would replace the prototype instead. *)
Definition call_init_callback (cb : init_callback) (sid : string) (st : state) : state :=
  match cb with
  | Register_self transport => set_transports (insert sid transport) st
  end.

(** Running the [onclose] callback. *)
Definition call_close_callback (cb : close_callback) (st : state) : state :=
  match cb with
  | Remove_self transport =>
      match objects st !! transport with
      | Some o =>
          match sessionId o with
          | Some sid =>
              if Js.truthy_string sid then set_transports (delete sid) st else st
          | None => st
          end
      | None => st
      end
  end.

Section Router.
Context {body : Type}.
Variable isInitializeRequest : body → bool.

(** [app.post('/mcp', async (req, res) => ...)]. *)
Definition app_post (req : request body) (st : state) : state * outcome body :=
  let sessionId := mcp_session_id req in
  if Js.truthy sessionId && Js.truthy_value (transports_at st sessionId) then
    let transport := transports_at st sessionId in
    (st, call_handleRequest transport req (Some (req_body req)))
  else if negb (Js.truthy sessionId) && isInitializeRequest (req_body req) then
    let transport := allocated st in
    let o := {| sessionId := None;
                onsessioninitialized := Some (Register_self transport);
                onclose := Some (Remove_self transport) |} in
    let server :=
      server_connect transport
        (server_tool get_current_time_tool
           {| server_name := "example-mcp"; server_version := "1.0.0";
              server_tools := []; server_transport := None |}) in
    ({| transports := transports st;
        objects := <[transport := o]> (objects st);
        servers := servers st ++ [server];
        allocated := S (allocated st) |},
     HandleRequest transport req (Some (req_body req)))
  else
    (st, Responded (Json 400 no_valid_session_error)).

(** [handleSessionRequest], mounted on GET and DELETE. *)
Definition handleSessionRequest (req : request body) (st : state)
    : state * outcome body :=
  let sessionId := mcp_session_id req in
  if negb (Js.truthy sessionId) || negb (Js.truthy_value (transports_at st sessionId)) then
    (st, Responded (Send 400 "Invalid or missing session ID"))
  else
    let transport := transports_at st sessionId in
    (st, call_handleRequest transport req None).

(** The routing table of the application. *)
Definition route (req : request body) (st : state) : state * outcome body :=
  match req_method req with
  | POST => app_post req st
  | GET => handleSessionRequest req st
  | DELETE => handleSessionRequest req st
  end.

(** What happens to the process: a request arrives, or the SDK, while it
    serves a transport, mints the session id (it stores the generator's
    result in [transport.sessionId] and then calls
    [onsessioninitialized] with it), or closes the transport (it calls
    [onclose]). *)
Inductive event :=
  | Arrives (req : request body)
  | SessionInitialized (transport : handle) (rnd : list N)
  | Closes (transport : handle).

Definition sdk_session_initialized (transport : handle) (rnd : list N)
    (st : state) : state :=
  match objects st !! transport with
  | Some o =>
      let sid := sessionIdGenerator rnd in
      let st1 :=
        set_objects (insert transport
          {| sessionId := Some sid;
             onsessioninitialized := onsessioninitialized o;
             onclose := onclose o |}) st in
      match onsessioninitialized o with
      | Some cb => call_init_callback cb sid st1
      | None => st1
      end
  | None => st
  end.

Definition sdk_close (transport : handle) (st : state) : state :=
  match objects st !! transport with
  | Some o =>
      match onclose o with
      | Some cb => call_close_callback cb st
      | None => st
      end
  | None => st
  end.

Definition step (st : state) (ev : event) : state :=
  match ev with
  | Arrives req => fst (route req st)
  | SessionInitialized transport rnd => sdk_session_initialized transport rnd st
  | Closes transport => sdk_close transport st
  end.

(** The state after a sequence of events. *)
Definition run (st : state) (evs : list event) : state := foldl step st evs.

(** The number of [server.tool] calls made for a tool name so far. *)
Definition registrations (name : string) (st : state) : nat :=
  length (filter (λ t, tool_name t = name) (concat (map server_tools (servers st)))).

(** A handshake: a POST without session id whose body is an initialize
    request. *)
Definition is_handshake (req : request body) : bool :=
  match req_method req with
  | POST => negb (Js.truthy (mcp_session_id req)) && isInitializeRequest (req_body req)
  | GET => false
  | DELETE => false
  end.

(** The transport object and the server a handshake constructs. *)
Definition fresh_transport (transport : handle) : transport_obj :=
  {| sessionId := None;
     onsessioninitialized := Some (Register_self transport);
     onclose := Some (Remove_self transport) |}.

Definition session_server (transport : handle) : mcp_server :=
  {| server_name := "example-mcp"; server_version := "1.0.0";
     server_tools := [get_current_time_tool];
     server_transport := Some transport |}.

(** The error a verb answers an unknown session with. *)
Definition rejection (m : method) : response :=
  match m with
  | POST => Json 400 no_valid_session_error
  | GET => Send 400 "Invalid or missing session ID"
  | DELETE => Send 400 "Invalid or missing session ID"
  end.

(** The body argument a verb's handler passes on to [handleRequest]. *)
Definition passed_body (req : request body) : option body :=
  match req_method req with
  | POST => Some (req_body req)
  | GET => None
  | DELETE => None
  end.

(** The event is not the minting of the id [sid]. *)
Definition does_not_mint (sid : string) (ev : event) : Prop :=
  match ev with
  | SessionInitialized _ rnd => sessionIdGenerator rnd ≠ sid
  | Arrives _ => True
  | Closes _ => True
  end.

Definition is_handshake_event (ev : event) : bool :=
  match ev with
  | Arrives req => is_handshake req
  | SessionInitialized _ _ => false
  | Closes _ => false
  end.

(** The number of handshakes among the events. *)
Definition handshakes (evs : list event) : nat :=
  length (List.filter is_handshake_event evs).

End Router.

(** An id the generator can return. *)
Definition minted (sid : string) : Prop := ∃ rnd, sid = sessionIdGenerator rnd.

(** What holds of every state the process can reach. *)
Record wf (st : state) : Prop := Wf {
  wf_keys : ∀ sid h, transports st !! sid = Some h → minted sid;
  wf_registered : ∀ sid h, transports st !! sid = Some h → is_Some (objects st !! h);
  wf_session_ids : ∀ h o sid,
    objects st !! h = Some o → sessionId o = Some sid → minted sid;
  wf_callbacks : ∀ h o,
    objects st !! h = Some o →
    onsessioninitialized o = Some (Register_self h) ∧ onclose o = Some (Remove_self h);
  wf_allocated : ∀ h : handle, is_Some (objects st !! h) ↔ h < allocated st;
  wf_servers : ∀ i srv, servers st !! i = Some srv → srv = session_server i;
  wf_servers_length : length (servers st) = allocated st
}.

End Server.

(** ** The client *)

Module Client.

(** An entry of [tools.tools]; the protocol makes the description
    optional. *)
Record tool_info := ToolInfo {
  name : string;
  description : option string
}.

(** [process.env.MCP_HTTP_URL || 'http://localhost:3000/mcp']. *)
Definition serverUrl (MCP_HTTP_URL : option string) : string :=
  match MCP_HTTP_URL with
  | Some s => if Js.truthy_string s then s else "http://localhost:3000/mcp"
  | None => "http://localhost:3000/mcp"
  end.

(** A possibly missing string inside a template literal. *)
Definition interpolate (v : option string) : string :=
  match v with
  | Some s => s
  | None => "undefined"
  end.

(** What the SDK reports of a server's registered tool on [tools/list]. *)
Definition listed (t : Server.tool) : tool_info :=
  {| name := Server.tool_name t; description := Some (Server.tool_description t) |}.

Section Program.
Context {R E : Type}.

(** An argument of [console.log]: a string or a tool-call result. *)
Inductive arg :=
  | Str (s : string)
  | Obj (r : R).

(** What the program does to the outside, in order. *)
Inductive action :=
  | console_log (args : list arg)
  | console_error (err : E)
  | client_connect (url : string)
  | client_listTools
  | client_callTool (tool : string) (arguments : list (string * string))
  | client_close
  | process_exit (code : Z).

(** How the SDK client answers: [new URL(s)] may throw, and each awaited
    call resolves or rejects. *)
Record sdk := Sdk {
  new_URL : string → option E;
  connect : string → option E;
  listTools : E + list tool_info;
  callTool : string → E + R;
  close : option E
}.

(** Computations that act on the outside and may throw. *)
Definition M (A : Type) : Type := list action * (E + A).

#[local] Instance M_ret : MRet M := λ A a, ([], inr a).

#[local] Instance M_bind : MBind M := λ A B f m,
  match m with
  | (t, inl err) => (t, inl err)
  | (t, inr a) => ((t ++ (f a).1)%list, (f a).2)
  end.

(** An action that cannot fail. *)
Definition perform (a : action) : M unit := ([a], inr ()).

(** An awaited call with its settlement. *)
Definition await {A : Type} (a : action) (r : E + A) : M A := ([a], r).

Definition settled (r : option E) : E + unit :=
  match r with
  | Some err => inl err
  | None => inr ()
  end.

(** A constructor call that may throw. *)
Definition construct (r : option E) : M unit := ([], settled r).

(** [for (const x of l) { f(x) }]. *)
Fixpoint for_of {A : Type} (l : list A) (f : A → M unit) : M unit :=
  match l with
  | [] => mret ()
  | x :: l' => f x ;; for_of l' f
  end.

(** [console.log(`- ${t.name}: ${t.description}`)]. *)
Definition tool_line (t : tool_info) : action :=
  console_log [Str ("- " ++ name t ++ ": " ++ interpolate (description t))].

(** [tools.tools.some((t) => t.name === 'get_current_time')]. *)
Definition has_get_current_time (tools : list tool_info) : bool :=
  existsb (λ t, String.eqb (name t) "get_current_time") tools.

(** [async function main()]. *)
Definition main (MCP_HTTP_URL : option string) (s : sdk) : M unit :=
  perform (console_log [Str "Connecting to MCP Streamable HTTP server at";
                        Str (serverUrl MCP_HTTP_URL)]) ;;
  construct (new_URL s (serverUrl MCP_HTTP_URL)) ;;
  await (client_connect (serverUrl MCP_HTTP_URL))
        (settled (connect s (serverUrl MCP_HTTP_URL))) ;;
  perform (console_log [Str "Initialized"]) ;;
  tools ← await client_listTools (listTools s) ;
  perform (console_log [Str "Available tools:"]) ;;
  for_of tools (λ t, perform (tool_line t)) ;;
  let has := has_get_current_time tools in
  (if has then
     result ← await (client_callTool "get_current_time" [])
                    (callTool s "get_current_time") ;
     perform (console_log [Str "get_current_time result:"; Obj result])
   else
     perform (console_log [Str "get_current_time tool not found on server"])) ;;
  await client_close (settled (close s)).

(** [main().catch((err) => { console.error(err); process.exit(1); })]. *)
Definition program (MCP_HTTP_URL : option string) (s : sdk) : list action :=
  match main MCP_HTTP_URL s with
  | (t, inl err) => (t ++ [console_error err; process_exit 1])%list
  | (t, inr _) => t
  end.

Definition is_callTool (a : action) : bool :=
  match a with
  | client_callTool _ _ => true
  | _ => false
  end.



End Program.

Arguments arg : clear implicits.
Arguments action : clear implicits.
Arguments sdk : clear implicits.

End Client.

Example randomUUID_zero :
  Crypto.randomUUID [] = "00000000-0000-4000-8000-000000000000".
Proof. reflexivity. Qed.

Example randomUUID_sample :
  Crypto.randomUUID [18; 52; 86; 120; 154; 188; 222; 240; 1; 35; 69; 103; 137; 171; 205; 239]%N
  = "12345678-9abc-4ef0-8123-456789abcdef".
Proof. reflexivity. Qed.

Lemma randomUUID_length rnd : String.length (Crypto.randomUUID rnd) = 36.
Proof. reflexivity. Qed.

(** * Properties of the embedding *)

Import Http Server.

(** ** Generated ids *)

Lemma minted_length sid : minted sid → String.length sid = 36.
Proof. intros [rnd ->]. apply randomUUID_length. Qed.

Lemma minted_truthy sid : minted sid → Js.truthy_string sid = true.
Proof. intros [rnd ->]. reflexivity. Qed.

Lemma inherited_length k : Js.inherited k = true → String.length k ≠ 36.
Proof.
  unfold Js.inherited, Js.Object_prototype_names. simpl.
  repeat match goal with
    | |- context [String.eqb k ?name] =>
        destruct (String.eqb_spec k name) as [-> | _]; [intros _; simpl; lia |]
    end.
  discriminate.
Qed.

Lemma minted_not_inherited sid : minted sid → Js.inherited sid = false.
Proof.
  intros H%minted_length. destruct (Js.inherited sid) eqn:E; [| done].
  by apply inherited_length in E.
Qed.

(** ** Dictionary reads *)

Lemma get_own {A} (o : gmap string A) k a : o !! k = Some a → Js.get o k = Some (Js.Own a).
Proof. unfold Js.get. by intros ->. Qed.

Lemma get_undefined {A} (o : gmap string A) k :
  o !! k = None → Js.inherited k = false → Js.get o k = None.
Proof. unfold Js.get. by intros -> ->. Qed.

Lemma get_builtin {A} (o : gmap string A) k :
  o !! k = None → Js.inherited k = true → Js.get o k = Some (Js.Builtin k).
Proof. unfold Js.get. by intros -> ->. Qed.

(** ** The handlers, case by case *)

Section Handlers.
Context {body : Type} (isInitializeRequest : body → bool).
Implicit Types (req : request body) (st : state) (evs : list (event (body := body))).

Local Abbreviation route := (route isInitializeRequest).
Local Abbreviation step := (step isInitializeRequest).
Local Abbreviation run := (run isInitializeRequest).
Local Abbreviation is_handshake := (is_handshake isInitializeRequest).

(** The state a handshake leaves behind. *)
Lemma route_handshake req st :
  is_handshake req = true →
  route req st =
    ({| transports := transports st;
        objects := <[allocated st := fresh_transport (allocated st)]> (objects st);
        servers := servers st ++ [session_server (allocated st)];
        allocated := S (allocated st) |},
     HandleRequest (allocated st) req (Some (req_body req))).
Proof.
  unfold is_handshake, Server.route, app_post.
  destruct (req_method req); try discriminate.
  intros [Hfalsy Hinit]%andb_prop. apply negb_true_iff in Hfalsy.
  by rewrite Hfalsy, Hinit.
Qed.

(** A request that is not a handshake leaves the whole state alone. *)
Lemma route_frame req st : is_handshake req = false → (route req st).1 = st.
Proof.
  unfold is_handshake, Server.route, app_post, handleSessionRequest.
  destruct (req_method req); intros H; simpl in *.
  - rewrite H. by repeat case_match.
  - by case_match.
  - by case_match.
Qed.

(** No handler writes to the dictionary. *)
Lemma route_transports req st : transports (route req st).1 = transports st.
Proof.
  destruct (is_handshake req) eqn:E.
  - by rewrite route_handshake.
  - by rewrite route_frame.
Qed.

(** A request whose session id is an own property of the dictionary. *)
Lemma route_known req st sid h :
  mcp_session_id req = Some sid →
  Js.truthy_string sid = true →
  transports st !! sid = Some h →
  route req st = (st, HandleRequest h req (passed_body req)).
Proof.
  intros Hid Htruthy Hreg.
  unfold Server.route, app_post, handleSessionRequest, transports_at, passed_body.
  rewrite Hid. simpl. rewrite Htruthy, (get_own _ _ _ Hreg). simpl.
  by destruct (req_method req).
Qed.

(** A request whose session id reads as [undefined] in the dictionary. *)
Lemma route_unknown req st sid :
  mcp_session_id req = Some sid →
  Js.truthy_string sid = true →
  Js.get (transports st) sid = None →
  route req st = (st, Responded (rejection (req_method req))).
Proof.
  intros Hid Htruthy Hget.
  unfold Server.route, app_post, handleSessionRequest, transports_at, rejection.
  rewrite Hid. simpl. rewrite Htruthy, Hget. simpl.
  by destruct (req_method req).
Qed.

(** A request whose session id names a member of [Object.prototype]. *)
Lemma route_builtin req st sid :
  mcp_session_id req = Some sid →
  Js.truthy_string sid = true →
  Js.get (transports st) sid = Some (Js.Builtin sid) →
  route req st = (st, TypeError "transport.handleRequest").
Proof.
  intros Hid Htruthy Hget.
  unfold Server.route, app_post, handleSessionRequest, transports_at.
  rewrite Hid. simpl. rewrite Htruthy, Hget. simpl.
  by destruct (req_method req).
Qed.

(** A request without session id that is not a handshake. *)
Lemma route_missing req st :
  Js.truthy (mcp_session_id req) = false →
  is_handshake req = false →
  route req st = (st, Responded (rejection (req_method req))).
Proof.
  intros Hfalsy. unfold is_handshake, Server.route, app_post, handleSessionRequest, rejection.
  rewrite Hfalsy. simpl. destruct (req_method req); [| done | done].
  by intros ->.
Qed.

(** ** The invariant *)

Lemma wf_init : wf init.
Proof.
  split; simpl; try done.
  intros h. split; [intros [? ?]; done | lia].
Qed.

Lemma wf_handshake st : wf st →
  wf {| transports := transports st;
        objects := <[allocated st := fresh_transport (allocated st)]> (objects st);
        servers := servers st ++ [session_server (allocated st)];
        allocated := S (allocated st) |}.
Proof.
  intros [Hk Hr Hs Hc Ha Hsrv Hlen]. split; simpl.
  - done.
  - intros sid h Hreg. destruct (Hr _ _ Hreg) as [o Ho].
    rewrite lookup_insert. case_decide; eauto.
  - intros h o sid. rewrite lookup_insert. case_decide.
    + intros [= <-]. discriminate.
    + apply Hs.
  - intros h o. rewrite lookup_insert. case_decide as E.
    + intros [= <-]. by rewrite E.
    + apply Hc.
  - intros h. rewrite lookup_insert. case_decide as E.
    + subst h. split; [lia | eauto].
    + rewrite Ha. lia.
  - intros i srv. rewrite lookup_app_Some. intros [Hold | [Hge Hnew]].
    + by apply Hsrv.
    + rewrite Hlen in *. apply list_lookup_singleton_Some in Hnew as [Hi <-].
      f_equal. lia.
  - rewrite length_app, Hlen. simpl. lia.
Qed.

Lemma wf_session_initialized st transport rnd :
  wf st → wf (sdk_session_initialized transport rnd st).
Proof.
  intros Hwf. unfold sdk_session_initialized.
  destruct (objects st !! transport) as [o |] eqn:Ho; [| done].
  destruct (wf_callbacks st Hwf _ _ Ho) as [-> Hclose].
  destruct Hwf as [Hk Hr Hs Hc Ha Hsrv Hlen]. split; simpl.
  - intros sid h. rewrite lookup_insert. case_decide as E.
    + intros _. subst sid. by exists rnd.
    + apply Hk.
  - intros sid h. rewrite lookup_insert. case_decide as E.
    + intros [= <-]. rewrite lookup_insert_eq. eauto.
    + intros Hreg. destruct (Hr _ _ Hreg) as [o' Ho'].
      rewrite lookup_insert. case_decide; eauto.
  - intros h o' sid. rewrite lookup_insert. case_decide.
    + intros [= <-]. simpl. intros [= <-]. by exists rnd.
    + apply Hs.
  - intros h o'. rewrite lookup_insert. case_decide as E.
    + intros [= <-]. simpl. subst h. by split.
    + apply Hc.
  - intros h. rewrite <- Ha, lookup_insert. case_decide as E; [| done].
    subst h. split; intros _; [by rewrite Ho | eauto].
  - done.
  - done.
Qed.

Lemma wf_close st transport : wf st → wf (sdk_close transport st).
Proof.
  intros Hwf. unfold sdk_close.
  destruct (objects st !! transport) as [o |] eqn:Ho; [| done].
  destruct (wf_callbacks st Hwf _ _ Ho) as [_ ->]. simpl. rewrite Ho.
  destruct (sessionId o) as [sid |]; [| done].
  destruct (Js.truthy_string sid); [| done].
  destruct Hwf as [Hk Hr Hs Hc Ha Hsrv Hlen]. split; simpl; try done.
  - intros sid' h [_ Hreg]%lookup_delete_Some. eauto.
  - intros sid' h [_ Hreg]%lookup_delete_Some. eauto.
Qed.

Lemma wf_step st ev : wf st → wf (step st ev).
Proof.
  intros Hwf. destruct ev as [req | transport rnd | transport]; simpl.
  - destruct (is_handshake req) eqn:E.
    + rewrite route_handshake by done. by apply wf_handshake.
    + by rewrite route_frame.
  - by apply wf_session_initialized.
  - by apply wf_close.
Qed.

Lemma run_snoc st evs ev : run st (evs ++ [ev]) = step (run st evs) ev.
Proof. unfold Server.run. by rewrite foldl_app. Qed.

Lemma run_app st evs1 evs2 : run st (evs1 ++ evs2) = run (run st evs1) evs2.
Proof. unfold Server.run. by rewrite foldl_app. Qed.

Lemma wf_run st evs : wf st → wf (run st evs).
Proof.
  revert st. induction evs as [| ev evs IH]; intros st Hwf; [done |].
  simpl. apply IH. by apply wf_step.
Qed.

Lemma wf_reachable evs : wf (run init evs).
Proof. apply wf_run, wf_init. Qed.

End Handlers.

(** ** Provenance of transports and registry entries *)

Local Open Scope list_scope.

Section Traces.
Context {body : Type} (isInitializeRequest : body → bool).
Implicit Types (req : request body) (st : state) (evs : list (event (body := body))).

Local Abbreviation route := (route isInitializeRequest).
Local Abbreviation step := (step isInitializeRequest).
Local Abbreviation run := (run isInitializeRequest).
Local Abbreviation is_handshake := (is_handshake isInitializeRequest).
Local Abbreviation handshakes := (handshakes isInitializeRequest).

Lemma is_handshake_spec req :
  is_handshake req = true ↔
  req_method req = POST ∧ Js.truthy (mcp_session_id req) = false ∧
  isInitializeRequest (req_body req) = true.
Proof.
  unfold Server.is_handshake. destruct (req_method req).
  - rewrite andb_true_iff, negb_true_iff. tauto.
  - split; [done | intros [? _]; done].
  - split; [done | intros [? _]; done].
Qed.

Lemma objects_call_init_callback cb sid st :
  objects (call_init_callback cb sid st) = objects st.
Proof. by destruct cb. Qed.

Lemma objects_call_close_callback cb st :
  objects (call_close_callback cb st) = objects st.
Proof. destruct cb. simpl. by repeat case_match. Qed.

Lemma objects_session_initialized transport rnd st (h : handle) :
  is_Some (objects (sdk_session_initialized transport rnd st) !! h) →
  is_Some (objects st !! h).
Proof.
  unfold sdk_session_initialized.
  destruct (objects st !! transport) as [o |] eqn:Ho; [| done].
  assert (is_Some (<[transport := {| sessionId := Some (sessionIdGenerator rnd);
                                     onsessioninitialized := onsessioninitialized o;
                                     onclose := onclose o |}]> (objects st) !! h) →
          is_Some (objects st !! h)) as Hins.
  { rewrite lookup_insert. case_decide as E; [subst h; rewrite Ho; eauto | done]. }
  destruct (onsessioninitialized o); [rewrite objects_call_init_callback |]; apply Hins.
Qed.

Lemma objects_close transport st : objects (sdk_close transport st) = objects st.
Proof.
  unfold sdk_close. repeat case_match; try done. apply objects_call_close_callback.
Qed.

(** Every transport object was constructed by a handshake. *)
Lemma objects_provenance evs (h : handle) :
  is_Some (objects (run init evs) !! h) →
  ∃ evs1 req evs2,
    evs = evs1 ++ Arrives req :: evs2 ∧ is_handshake req = true ∧
    allocated (run init evs1) = h.
Proof.
  induction evs as [| ev evs IH] using rev_ind.
  { simpl. rewrite lookup_empty. by intros [? ?]. }
  rewrite run_snoc. intros Hh.
  assert (is_Some (objects (run init evs) !! h) →
          ∃ evs1 req evs2,
            evs ++ [ev] = evs1 ++ Arrives req :: evs2 ∧ is_handshake req = true ∧
            allocated (run init evs1) = h) as Hold.
  { intros (evs1 & req & evs2 & -> & Hhs & Hal)%IH.
    exists evs1, req, (evs2 ++ [ev]). by rewrite <- app_assoc. }
  destruct ev as [req | transport rnd | transport]; simpl in Hh.
  - destruct (is_handshake req) eqn:E.
    + rewrite route_handshake in Hh by done. simpl in Hh.
      rewrite lookup_insert in Hh. case_decide as Eh; [| by apply Hold].
      by exists evs, req, [].
    + rewrite route_frame in Hh by done. by apply Hold.
  - apply objects_session_initialized in Hh. by apply Hold.
  - rewrite objects_close in Hh. by apply Hold.
Qed.

(** ** Ids that stay unregistered *)

Lemma unregistered_step st ev sid :
  does_not_mint sid ev →
  transports st !! sid = None → transports (step st ev) !! sid = None.
Proof.
  destruct ev as [req | transport rnd | transport]; simpl; intros Hmint Hnone.
  - by rewrite route_transports.
  - unfold sdk_session_initialized.
    destruct (objects st !! transport) as [o |]; [| done].
    destruct (onsessioninitialized o) as [[t] |]; simpl; [| done].
    by rewrite lookup_insert_ne.
  - unfold sdk_close.
    destruct (objects st !! transport) as [o |]; [| done].
    destruct (onclose o) as [[t] |]; simpl; [| done].
    repeat case_match; try done. simpl.
    rewrite lookup_delete. by case_decide.
Qed.

Lemma unregistered_run st evs sid :
  Forall (does_not_mint sid) evs →
  transports st !! sid = None → transports (run st evs) !! sid = None.
Proof.
  intros Hall. revert st. induction Hall as [| ev evs Hev _ IH]; intros st Hnone; [done |].
  simpl. apply IH. by apply unregistered_step.
Qed.

(** ** Servers and their tools *)

Lemma servers_step st ev :
  servers (step st ev) =
  servers st ++
    match ev with
    | Arrives req => if is_handshake req then [session_server (allocated st)] else []
    | SessionInitialized _ _ => []
    | Closes _ => []
    end.
Proof.
  destruct ev as [req | transport rnd | transport]; simpl; rewrite ?app_nil_r.
  - destruct (is_handshake req) eqn:E.
    + by rewrite route_handshake.
    + by rewrite route_frame, app_nil_r.
  - unfold sdk_session_initialized. repeat case_match; try done.
    by destruct i.
  - unfold sdk_close. repeat case_match; try done.
    destruct c. simpl. by repeat case_match.
Qed.

Lemma servers_run st evs i srv :
  servers st !! i = Some srv → servers (run st evs) !! i = Some srv.
Proof.
  revert st. induction evs as [| ev evs IH]; intros st Hi; [done |].
  simpl. apply IH. rewrite servers_step. by apply lookup_app_l_Some.
Qed.

(** When the SDK mints the id of a constructed transport, the transport's
    callback registers it under that id. *)
Lemma session_initialized_registers st (h : handle) rnd :
  wf st → h < allocated st →
  transports (step st (SessionInitialized h rnd)) !! sessionIdGenerator rnd = Some h.
Proof.
  intros Hwf Hlt. apply (wf_allocated st Hwf) in Hlt as [o Ho].
  simpl. unfold sdk_session_initialized. rewrite Ho.
  destruct (wf_callbacks st Hwf _ _ Ho) as [-> _]. simpl.
  apply lookup_insert_eq.
Qed.

Lemma allocated_step st ev :
  allocated (step st ev) = allocated st + handshakes [ev].
Proof.
  unfold Server.handshakes.
  destruct ev as [req | transport rnd | transport]; simpl.
  - destruct (is_handshake req) eqn:E.
    + rewrite route_handshake by done. simpl. lia.
    + rewrite route_frame by done. simpl. lia.
  - unfold sdk_session_initialized. repeat case_match; try (simpl; lia).
    destruct i. simpl. lia.
  - unfold sdk_close. repeat case_match; try (simpl; lia).
    destruct c. simpl. repeat case_match; simpl; lia.
Qed.

Lemma allocated_run st evs :
  allocated (run st evs) = allocated st + handshakes evs.
Proof.
  revert st. induction evs as [| ev evs IH]; intros st.
  - unfold Server.handshakes. simpl. lia.
  - change (run st (ev :: evs)) with (run (step st ev) evs).
    rewrite IH, allocated_step. unfold Server.handshakes. simpl.
    destruct (is_handshake_event isInitializeRequest ev); simpl; lia.
Qed.

Lemma registrations_wf st :
  wf st → registrations "get_current_time" st = allocated st.
Proof.
  intros Hwf. rewrite <- (wf_servers_length st Hwf).
  pose proof (wf_servers st Hwf) as Hsrv. unfold registrations.
  generalize dependent (servers st). intros l.
  induction l as [| srv l IH] using rev_ind; intros Hsrv; [done |].
  rewrite map_app, concat_app, filter_app, !length_app. simpl.
  rewrite IH.
  - rewrite (Hsrv (length l) srv).
    + reflexivity.
    + rewrite lookup_app_r by lia. by rewrite Nat.sub_diag.
  - intros i s Hi. apply Hsrv. by rewrite lookup_app_l by (by eapply lookup_lt_Some).
Qed.

End Traces.

(** * The claims of the specification *)

Section Claims.
Context {body : Type} (isInitializeRequest : body → bool).
Implicit Types (req : request body) (st : state) (evs : list (event (body := body))).

Local Abbreviation route := (route isInitializeRequest).
Local Abbreviation step := (step isInitializeRequest).
Local Abbreviation run := (run isInitializeRequest).
Local Abbreviation is_handshake := (is_handshake isInitializeRequest).
Local Abbreviation handshakes := (handshakes isInitializeRequest).

(** C1.  In every state the process can reach, a POST, GET or DELETE
    request whose [mcp-session-id] header equals an id held by the
    registry is handed, by [transport.handleRequest], to exactly the
    transport the registry holds for that id, and the handler leaves the
    whole state, the registry included, as it was.  (POST passes the
    parsed body along, GET and DELETE do not.) *)
Theorem C1_known_session_dispatched evs req sid h :
  mcp_session_id req = Some sid →
  transports (run init evs) !! sid = Some h →
  route req (run init evs) = (run init evs, HandleRequest h req (passed_body req)).
Proof.
  intros Hid Hreg. apply (route_known _ _ _ sid); [done | | done].
  apply minted_truthy. eapply wf_keys; [apply (wf_reachable isInitializeRequest evs) | done].
Qed.

(** C2.  A POST request with no session id whose body is not an initialize
    request is answered with status 400 and the fixed JSON-RPC error body,
    in any state. *)
Theorem C2_post_without_session_rejected req st :
  req_method req = POST →
  mcp_session_id req = None →
  isInitializeRequest (req_body req) = false →
  route req st =
    (st, Responded (Json 400
       (JObject [ ("jsonrpc", JString "2.0");
                  ("error", JObject [ ("code", JNumber (-32000));
                                      ("message", JString "Bad Request: No valid session ID provided") ]);
                  ("id", JNull) ]))).
Proof.
  intros Hm Hid Hinit.
  rewrite route_missing.
  - by rewrite Hm.
  - by rewrite Hid.
  - unfold Server.is_handshake. by rewrite Hm, Hid, Hinit.
Qed.

(** C10.  A request that is answered with one of the two 400 errors leaves
    the state, and so the registry, exactly as it was. *)
Theorem C10_rejection_preserves_registry req st st' r :
  route req st = (st', Responded r) →
  st' = st ∧ transports st' = transports st ∧ r = rejection (req_method req).
Proof.
  intros Hroute.
  destruct (is_handshake req) eqn:E.
  { rewrite route_handshake in Hroute by done. discriminate. }
  pose proof (route_frame _ req st E) as Hframe. rewrite Hroute in Hframe.
  simpl in Hframe. subst st'. split; [done |]. split; [done |].
  revert Hroute.
  unfold Server.route, app_post, handleSessionRequest, call_handleRequest, rejection.
  destruct (req_method req); repeat case_match; congruence.
Qed.

(** C3.  A handler changes the state only for a handshake, a POST that
    carries no session id and whose body is an initialize request; any
    other request leaves the state as it was.  A handshake constructs a
    new transport, with the callback that registers it and the close
    callback that removes its entry, passes the request to it, and leaves
    the registry itself untouched.  Every entry the registry ever holds
    maps an id minted by the generator to a transport that such a
    handshake constructed and that carries these two callbacks; and when
    the SDK mints the id of a constructed transport, that callback
    registers the transport under it. *)
Theorem C3_sessions_created_by_handshake_only :
  (∀ req st, (route req st).1 ≠ st →
     req_method req = POST ∧ Js.truthy (mcp_session_id req) = false ∧
     isInitializeRequest (req_body req) = true) ∧
  (∀ req st,
     req_method req = POST → Js.truthy (mcp_session_id req) = false →
     isInitializeRequest (req_body req) = true →
     route req st =
       ({| transports := transports st;
           objects := <[allocated st :=
                          {| sessionId := None;
                             onsessioninitialized := Some (Register_self (allocated st));
                             onclose := Some (Remove_self (allocated st)) |}]> (objects st);
           servers := servers st ++ [session_server (allocated st)];
           allocated := S (allocated st) |},
        HandleRequest (allocated st) req (Some (req_body req)))) ∧
  (∀ evs sid h, transports (run init evs) !! sid = Some h →
     (∃ rnd, sid = sessionIdGenerator rnd) ∧
     (∃ o, objects (run init evs) !! h = Some o ∧
           onsessioninitialized o = Some (Register_self h) ∧
           onclose o = Some (Remove_self h)) ∧
     (∃ evs1 req evs2,
        evs = evs1 ++ Arrives req :: evs2 ∧
        req_method req = POST ∧ Js.truthy (mcp_session_id req) = false ∧
        isInitializeRequest (req_body req) = true ∧
        allocated (run init evs1) = h)) ∧
  (∀ evs (h : handle) rnd, h < allocated (run init evs) →
     transports (step (run init evs) (SessionInitialized h rnd))
       !! sessionIdGenerator rnd = Some h).
Proof.
  split; [| split; [| split]]; cycle 3.
  { intros evs h rnd. apply session_initialized_registers, wf_reachable. }
  - intros req st Hchg. apply is_handshake_spec.
    destruct (is_handshake req) eqn:E; [done |].
    by rewrite route_frame in Hchg.
  - intros req st Hm Hid Hinit. apply route_handshake.
    by apply is_handshake_spec.
  - intros evs sid h Hreg.
    pose proof (wf_reachable isInitializeRequest evs) as Hwf.
    split; [by eapply (wf_keys _ Hwf) |].
    destruct (wf_registered _ Hwf _ _ Hreg) as [o Ho].
    split.
    + exists o. split; [done |]. by apply (wf_callbacks _ Hwf).
    + destruct (objects_provenance isInitializeRequest evs h)
        as (evs1 & req & evs2 & -> & Hhs & Hal); [by eauto |].
      apply is_handshake_spec in Hhs. destruct Hhs as (Hm & Hid & Hinit).
      exists evs1, req, evs2. repeat split; assumption || reflexivity.
Qed.

(** C4 (amended).  When the [onclose] callback of a session's transport
    has run, the session's id is absent from the registry; and as long as
    the generator does not mint that id again, it stays absent and every
    request carrying it is answered with the 400 error of its verb instead
    of being routed. *)
Theorem C4_closed_session_unknown evs later h o sid req :
  objects (run init evs) !! h = Some o →
  sessionId o = Some sid →
  Forall (does_not_mint sid) later →
  mcp_session_id req = Some sid →
  transports (step (run init evs) (Closes h)) !! sid = None ∧
  transports (run (step (run init evs) (Closes h)) later) !! sid = None ∧
  route req (run (step (run init evs) (Closes h)) later) =
    (run (step (run init evs) (Closes h)) later,
     Responded (rejection (req_method req))).
Proof.
  intros Ho Hsid Hlater Hid.
  pose proof (wf_reachable isInitializeRequest evs) as Hwf.
  assert (minted sid) as Hminted by (by eapply (wf_session_ids _ Hwf)).
  assert (transports (step (run init evs) (Closes h)) !! sid = None) as Hgone.
  { simpl. unfold sdk_close. rewrite Ho.
    destruct (wf_callbacks _ Hwf _ _ Ho) as [_ ->]. simpl.
    rewrite Ho, Hsid, (minted_truthy _ Hminted). simpl.
    apply lookup_delete_eq. }
  assert (transports (run (step (run init evs) (Closes h)) later) !! sid = None)
    as Hstill by (by apply unregistered_run).
  split; [done |]. split; [done |].
  apply (route_unknown _ _ _ sid); [done | by apply minted_truthy |].
  apply get_undefined; [done | by apply minted_not_inherited].
Qed.

(** C5 (amended).  For every id [sid] the generator returns and every
    transport [h], registering [h] under [sid] always succeeds and leaves
    [sid] mapped to [h], whether or not [sid] was registered before (an
    existing mapping is replaced); every other id keeps its mapping and
    nothing but the registry changes. *)
Theorem C5_register_stores_and_replaces (h : handle) rnd st :
  transports (call_init_callback (Register_self h) (sessionIdGenerator rnd) st)
    !! sessionIdGenerator rnd = Some h ∧
  (∀ k, k ≠ sessionIdGenerator rnd →
     transports (call_init_callback (Register_self h) (sessionIdGenerator rnd) st) !! k
     = transports st !! k) ∧
  objects (call_init_callback (Register_self h) (sessionIdGenerator rnd) st) = objects st ∧
  servers (call_init_callback (Register_self h) (sessionIdGenerator rnd) st) = servers st.
Proof.
  simpl. split; [apply lookup_insert_eq |]. split; [| done].
  intros k Hk. by apply lookup_insert_ne.
Qed.

(** C7 (amended).  In every state the process can reach, each [McpServer]
    instance has exactly one registered tool, [get_current_time], taking
    no parameters; the instances are those the handshakes constructed, one
    each, so the tool has been registered once per handshake (and not at
    all at process start); and no later sequence of events changes or
    removes an instance that exists. *)
Theorem C7_one_tool_per_session_server evs :
  (∀ i srv, servers (run init evs) !! i = Some srv →
     server_tools srv = [get_current_time_tool] ∧ server_transport srv = Some i) ∧
  length (servers (run init evs)) = handshakes evs ∧
  registrations "get_current_time" (run init evs) = handshakes evs ∧
  (∀ later i srv, servers (run init evs) !! i = Some srv →
     servers (run (run init evs) later) !! i = Some srv).
Proof.
  pose proof (wf_reachable isInitializeRequest evs) as Hwf.
  split; [| split; [| split]].
  - intros i srv Hi. by rewrite (wf_servers _ Hwf _ _ Hi).
  - by rewrite (wf_servers_length _ Hwf), allocated_run.
  - by rewrite registrations_wf, allocated_run.
  - intros later i srv Hi. by apply servers_run.
Qed.

(** C9 (amended).  A POST request whose [mcp-session-id] header is a
    non-empty string that is neither registered nor the name of a member
    of [Object.prototype] is answered with the fixed 400 JSON-RPC error
    and changes nothing, even when its body is an initialize request. *)
Theorem C9_post_unknown_session_rejected req st sid :
  req_method req = POST →
  mcp_session_id req = Some sid →
  sid ≠ "" →
  transports st !! sid = None →
  Js.inherited sid = false →
  route req st = (st, Responded (Json 400 no_valid_session_error)).
Proof.
  intros Hm Hid Hne Hnone Hinh.
  rewrite (route_unknown _ req st sid); [by rewrite Hm | done | | by apply get_undefined].
  by destruct sid.
Qed.

End Claims.

(** ** The claims at concrete inputs

    The bodies are booleans here, and the initialize requests are the
    bodies [true]; the generator draws the all-zero bytes. *)

(** C6.  The GET and DELETE handler does not answer every unregistered
    session id with the 400 error: the id ["constructor"], registered by
    no session, reads as a member of [Object.prototype] in the empty
    registry, the guard lets it through, and the call of its
    [handleRequest] raises a [TypeError] in place of the response.  The
    same holds of every inherited name that is not registered, in any
    state, and for POST requests. *)
Theorem C6_inherited_name_escapes_the_guard :
  (∀ (body : Type) (b : body),
     handleSessionRequest (Request GET (Some "constructor") b) init
     = (init, TypeError "transport.handleRequest") ∧
     handleSessionRequest (Request DELETE (Some "constructor") b) init
     = (init, TypeError "transport.handleRequest")) ∧
  (∀ (body : Type) (isInitializeRequest : body → bool) (req : request body) st sid,
     mcp_session_id req = Some sid →
     transports st !! sid = None →
     Js.inherited sid = true →
     route isInitializeRequest req st = (st, TypeError "transport.handleRequest")).
Proof.
  split; [by split |].
  intros body isInitializeRequest req st sid Hid Hnone Hinh.
  apply (route_builtin _ _ _ sid); [done | | by apply get_builtin].
  destruct sid; [discriminate | done].
Qed.

Lemma C1_witness :
  route (λ b : bool, b)
    (Request GET (Some "00000000-0000-4000-8000-000000000000") false)
    (run (λ b : bool, b) init
       [Arrives (Request POST None true); SessionInitialized 0 []])
  = (run (λ b : bool, b) init
       [Arrives (Request POST None true); SessionInitialized 0 []],
     HandleRequest 0
       (Request GET (Some "00000000-0000-4000-8000-000000000000") false) None).
Proof.
  apply (C1_known_session_dispatched (λ b : bool, b)
           [Arrives (Request POST None true); SessionInitialized 0 []]
           (Request GET (Some "00000000-0000-4000-8000-000000000000") false)
           "00000000-0000-4000-8000-000000000000" 0).
  - reflexivity.
  - vm_compute. reflexivity.
Defined.

Lemma C2_witness :
  route (λ b : bool, b) (Request POST None false) init
  = (init, Responded (Json 400 no_valid_session_error)).
Proof.
  apply (C2_post_without_session_rejected (λ b : bool, b) (Request POST None false) init);
    reflexivity.
Defined.

Lemma C3_witness :
  ∃ evs1 req evs2,
    [Arrives (Request POST None true); SessionInitialized 0 []]
    = evs1 ++ Arrives req :: evs2 ∧
    req_method req = POST ∧ Js.truthy (mcp_session_id req) = false ∧
    req_body req = true ∧
    allocated (run (λ b : bool, b) init evs1) = 0.
Proof.
  apply (proj1 (proj2 (proj2 (C3_sessions_created_by_handshake_only (λ b : bool, b))))
           [Arrives (Request POST None true); SessionInitialized 0 []]
           "00000000-0000-4000-8000-000000000000" 0).
  vm_compute. reflexivity.
Defined.

Lemma C4_witness :
  transports
    (run (λ b : bool, b)
       (step (λ b : bool, b)
          (run (λ b : bool, b) init
             [Arrives (Request POST None true); SessionInitialized 0 []])
          (Closes 0))
       [Arrives (Request POST None true); SessionInitialized 1 [1%N]])
    !! "00000000-0000-4000-8000-000000000000" = None ∧
  route (λ b : bool, b)
    (Request DELETE (Some "00000000-0000-4000-8000-000000000000") false)
    (run (λ b : bool, b)
       (step (λ b : bool, b)
          (run (λ b : bool, b) init
             [Arrives (Request POST None true); SessionInitialized 0 []])
          (Closes 0))
       [Arrives (Request POST None true); SessionInitialized 1 [1%N]])
  = (run (λ b : bool, b)
       (step (λ b : bool, b)
          (run (λ b : bool, b) init
             [Arrives (Request POST None true); SessionInitialized 0 []])
          (Closes 0))
       [Arrives (Request POST None true); SessionInitialized 1 [1%N]],
     Responded (Send 400 "Invalid or missing session ID")).
Proof.
  apply (C4_closed_session_unknown (λ b : bool, b)
           [Arrives (Request POST None true); SessionInitialized 0 []]
           [Arrives (Request POST None true); SessionInitialized 1 [1%N]]
           0
           {| sessionId := Some "00000000-0000-4000-8000-000000000000";
              onsessioninitialized := Some (Register_self 0);
              onclose := Some (Remove_self 0) |}
           "00000000-0000-4000-8000-000000000000"
           (Request DELETE (Some "00000000-0000-4000-8000-000000000000") false)).
  - vm_compute. reflexivity.
  - reflexivity.
  - repeat constructor. simpl. discriminate.
  - reflexivity.
Defined.

(** C4 as stated fails: not every request that follows the close is
    rejected.  After the session's transport has closed and its id has
    left the registry, a second handshake whose generator returns the same
    id registers the new transport under it, and a GET carrying the id is
    routed to that transport. *)
Lemma C4_counterexample :
  transports
    (run (λ b : bool, b) init
       [Arrives (Request POST None true); SessionInitialized 0 []; Closes 0])
    !! "00000000-0000-4000-8000-000000000000" = None ∧
  route (λ b : bool, b)
    (Request GET (Some "00000000-0000-4000-8000-000000000000") false)
    (run (λ b : bool, b) init
       [Arrives (Request POST None true); SessionInitialized 0 []; Closes 0;
        Arrives (Request POST None true); SessionInitialized 1 []])
  = (run (λ b : bool, b) init
       [Arrives (Request POST None true); SessionInitialized 0 []; Closes 0;
        Arrives (Request POST None true); SessionInitialized 1 []],
     HandleRequest 1
       (Request GET (Some "00000000-0000-4000-8000-000000000000") false) None) ∧
  route (λ b : bool, b)
    (Request GET (Some "00000000-0000-4000-8000-000000000000") false)
    (run (λ b : bool, b) init
       [Arrives (Request POST None true); SessionInitialized 0 []; Closes 0;
        Arrives (Request POST None true); SessionInitialized 1 []])
  ≠ (run (λ b : bool, b) init
       [Arrives (Request POST None true); SessionInitialized 0 []; Closes 0;
        Arrives (Request POST None true); SessionInitialized 1 []],
     Responded (Send 400 "Invalid or missing session ID")).
Proof. vm_compute. repeat split. discriminate. Qed.

(** C5 as stated fails: registering a second transport under an id that is
    already present does not fail; it replaces the mapping. *)
Lemma C5_counterexample :
  transports (call_init_callback (Register_self 0) (sessionIdGenerator []) init)
    !! sessionIdGenerator [] = Some 0 ∧
  transports
    (call_init_callback (Register_self 1) (sessionIdGenerator [])
       (call_init_callback (Register_self 0) (sessionIdGenerator []) init))
    !! sessionIdGenerator [] = Some 1 ∧
  transports
    (run (λ b : bool, b) init
       [Arrives (Request POST None true); Arrives (Request POST None true);
        SessionInitialized 0 []; SessionInitialized 1 []])
    !! "00000000-0000-4000-8000-000000000000" = Some 1.
Proof. vm_compute. repeat split. Qed.

Lemma C5_witness :
  transports (call_init_callback (Register_self 1) (sessionIdGenerator [])
                (call_init_callback (Register_self 0) (sessionIdGenerator [1%N]) init))
    !! sessionIdGenerator [1%N]
  = transports (call_init_callback (Register_self 0) (sessionIdGenerator [1%N]) init)
      !! sessionIdGenerator [1%N].
Proof.
  apply (proj1 (proj2 (C5_register_stores_and_replaces 1 []
           (call_init_callback (Register_self 0) (sessionIdGenerator [1%N]) init)))
           (sessionIdGenerator [1%N])).
  discriminate.
Defined.

(** C7 as stated fails: no tool is registered at process start, and two
    handshakes register [get_current_time] twice, once on each of the two
    servers. *)
Lemma C7_counterexample :
  servers init = [] ∧
  registrations "get_current_time" init = 0 ∧
  registrations "get_current_time"
    (run (λ b : bool, b) init
       [Arrives (Request POST None true); Arrives (Request POST None true)]) = 2.
Proof. vm_compute. repeat split. Qed.

(** C9 as stated fails: a POST that carries the header with an empty value,
    which no registry entry matches, and an initialize body is not
    rejected; it is a handshake and a transport is constructed for it. *)
Lemma C9_counterexample :
  transports init !! "" = None ∧
  (route (λ b : bool, b) (Request POST (Some "") true) init).2
  = HandleRequest 0 (Request POST (Some "") true) (Some true) ∧
  objects (route (λ b : bool, b) (Request POST (Some "") true) init).1 !! 0
  = Some (fresh_transport 0) ∧
  route (λ b : bool, b) (Request POST (Some "") true) init
  ≠ (init, Responded (Json 400 no_valid_session_error)).
Proof. vm_compute. repeat split. discriminate. Qed.

Lemma C9_witness :
  route (λ b : bool, b) (Request POST (Some "no-such-session") true) init
  = (init, Responded (Json 400 no_valid_session_error)).
Proof.
  apply (C9_post_unknown_session_rejected (λ b : bool, b)
           (Request POST (Some "no-such-session") true) init "no-such-session").
  - reflexivity.
  - reflexivity.
  - discriminate.
  - reflexivity.
  - reflexivity.
Defined.

Lemma C10_witness :
  init = init ∧ transports init = transports init ∧
  Send 400 "Invalid or missing session ID" = rejection GET.
Proof.
  apply (C10_rejection_preserves_registry (λ b : bool, b)
           (Request GET None false) init init
           (Send 400 "Invalid or missing session ID")).
  reflexivity.
Defined.

Lemma C7_witness :
  server_tools (session_server 1) = [get_current_time_tool] ∧
  server_transport (session_server 1) = Some 1.
Proof.
  apply (proj1 (C7_one_tool_per_session_server (λ b : bool, b)
           [Arrives (Request POST None true); Arrives (Request POST None true)])
           1 (session_server 1)).
  vm_compute. reflexivity.
Defined.

(** * Further properties of the server *)

Lemma truthy_string_nonempty sid : Js.truthy_string sid = true ↔ sid ≠ "".
Proof. destruct sid; simpl; split; done. Qed.

Lemma get_none_iff {A} (o : gmap string A) k :
  Js.get o k = None ↔ o !! k = None ∧ Js.inherited k = false.
Proof.
  unfold Js.get. destruct (o !! k); [| destruct (Js.inherited k)];
    intuition congruence.
Qed.

Lemma get_own_iff {A} (o : gmap string A) k a :
  Js.get o k = Some (Js.Own a) ↔ o !! k = Some a.
Proof.
  unfold Js.get. destruct (o !! k); [| destruct (Js.inherited k)];
    intuition congruence.
Qed.

Lemma get_builtin_iff {A} (o : gmap string A) k name :
  Js.get o k = Some (Js.Builtin name) ↔
  o !! k = None ∧ Js.inherited k = true ∧ name = k.
Proof.
  unfold Js.get. destruct (o !! k); [| destruct (Js.inherited k)];
    intuition congruence.
Qed.

Section Outcomes.
Context {body : Type} (isInitializeRequest : body → bool).
Implicit Types (req : request body) (st : state) (evs : list (event (body := body))).

Local Abbreviation route := (route isInitializeRequest).
Local Abbreviation step := (step isInitializeRequest).
Local Abbreviation run := (run isInitializeRequest).
Local Abbreviation is_handshake := (is_handshake isInitializeRequest).

(** The outcome of a request, by what the dictionary read gives. *)
Lemma route_truthy req st sid :
  mcp_session_id req = Some sid → sid ≠ "" →
  route req st =
    match Js.get (transports st) sid with
    | Some (Js.Own h) => (st, HandleRequest h req (passed_body req))
    | Some (Js.Builtin _) => (st, TypeError "transport.handleRequest")
    | None => (st, Responded (rejection (req_method req)))
    end.
Proof.
  intros Hid Hne%truthy_string_nonempty.
  destruct (Js.get (transports st) sid) as [[h | name] |] eqn:Hget.
  - apply get_own_iff in Hget. by apply (route_known _ _ _ sid).
  - pose proof Hget as (_ & _ & ->)%get_builtin_iff. by apply (route_builtin _ _ _ sid).
  - by apply (route_unknown _ _ _ sid).
Qed.

Lemma route_falsy req st :
  Js.truthy (mcp_session_id req) = false →
  route req st =
    if is_handshake req
    then ({| transports := transports st;
             objects := <[allocated st := fresh_transport (allocated st)]> (objects st);
             servers := servers st ++ [session_server (allocated st)];
             allocated := S (allocated st) |},
          HandleRequest (allocated st) req (Some (req_body req)))
    else (st, Responded (rejection (req_method req))).
Proof.
  intros Hfalsy. destruct (is_handshake req) eqn:E.
  - by apply route_handshake.
  - by apply route_missing.
Qed.

Lemma header_cases req :
  Js.truthy (mcp_session_id req) = false ∨
  ∃ sid, mcp_session_id req = Some sid ∧ sid ≠ "".
Proof.
  destruct (mcp_session_id req) as [[| c s] |]; simpl; eauto.
Qed.

Lemma truthy_header req sid :
  mcp_session_id req = Some sid → sid ≠ "" → Js.truthy (mcp_session_id req) = true.
Proof. intros -> Hne. by apply truthy_string_nonempty. Qed.

(** X1.  A request is answered with a response of the handlers' own
    exactly when it has no session id and is not a handshake, or its
    session id is a non-empty string that is neither registered nor
    inherited from [Object.prototype]; the response is then the 400 error
    of the verb and the state is unchanged. *)
Theorem rejected_iff req st :
  ((∃ r, (route req st).2 = Responded r) ↔
   (Js.truthy (mcp_session_id req) = false ∧ is_handshake req = false) ∨
   (∃ sid, mcp_session_id req = Some sid ∧ sid ≠ "" ∧
           transports st !! sid = None ∧ Js.inherited sid = false)) ∧
  ((∃ r, (route req st).2 = Responded r) →
   route req st = (st, Responded (rejection (req_method req)))).
Proof.
  destruct (header_cases req) as [Hfalsy | (sid & Hid & Hne)].
  - rewrite (route_falsy req st Hfalsy).
    destruct (is_handshake req) eqn:E; simpl.
    + split; [| by intros [r ?]]. split; [by intros [r ?] |].
      intros [[_ ?] | (s & Hs & Hs' & _)]; [done |].
      rewrite (truthy_header req s Hs Hs') in Hfalsy. done.
    + split; [| done]. split; [by left | eauto].
  - rewrite (route_truthy req st sid Hid Hne).
    pose proof (truthy_header req sid Hid Hne) as Htruthy.
    destruct (Js.get (transports st) sid) as [[h | name] |] eqn:Hget; simpl.
    + split; [| by intros [r ?]]. split; [by intros [r ?] |].
      intros [[Hf _] | (s & Hs & _ & Hnone & Hinh)]; [congruence |].
      assert (s = sid) as -> by congruence.
      rewrite (get_undefined _ _ Hnone Hinh) in Hget. done.
    + split; [| by intros [r ?]]. split; [by intros [r ?] |].
      intros [[Hf _] | (s & Hs & _ & Hnone & Hinh)]; [congruence |].
      assert (s = sid) as -> by congruence.
      rewrite (get_undefined _ _ Hnone Hinh) in Hget. done.
    + split; [| done]. split; [| eauto].
      intros _. right. apply get_none_iff in Hget as [? ?]. by exists sid.
Qed.

(** X2.  The handlers throw exactly on a request whose session id is a
    non-empty string that is not registered and names a member of
    [Object.prototype]; on every other request they answer or pass the
    request on. *)
Theorem throws_iff req st :
  (∃ callee, (route req st).2 = TypeError callee) ↔
  ∃ sid, mcp_session_id req = Some sid ∧ sid ≠ "" ∧
         transports st !! sid = None ∧ Js.inherited sid = true.
Proof.
  destruct (header_cases req) as [Hfalsy | (sid & Hid & Hne)].
  - rewrite (route_falsy req st Hfalsy).
    split.
    + destruct (is_handshake req); by intros [c ?].
    + intros (s & Hs & Hs' & _).
      rewrite (truthy_header req s Hs Hs') in Hfalsy. done.
  - rewrite (route_truthy req st sid Hid Hne).
    destruct (Js.get (transports st) sid) as [[h | name] |] eqn:Hget; simpl.
    + split; [by intros [c ?] |].
      intros (s & Hs & _ & Hnone & Hinh). assert (s = sid) as -> by congruence.
      rewrite (get_builtin _ _ Hnone Hinh) in Hget. done.
    + split; [| eauto]. intros _.
      apply get_builtin_iff in Hget as (? & ? & _). by exists sid.
    + split; [by intros [c ?] |].
      intros (s & Hs & _ & Hnone & Hinh). assert (s = sid) as -> by congruence.
      rewrite (get_builtin _ _ Hnone Hinh) in Hget. done.
Qed.

(** X3.  A request reaches a transport that already exists only by
    carrying a session id registered for that very transport: whenever a
    handler passes a request to a transport constructed before the request
    arrived, the request's header is an id the registry maps to it, the
    request is passed on as it came, and the state is unchanged. *)
Theorem existing_transport_needs_its_id req st st' (h : handle) req' parsedBody :
  route req st = (st', HandleRequest h req' parsedBody) →
  h < allocated st →
  ∃ sid, mcp_session_id req = Some sid ∧ sid ≠ "" ∧
         transports st !! sid = Some h ∧
         st' = st ∧ req' = req ∧ parsedBody = passed_body req.
Proof.
  intros Hroute Hlt.
  destruct (header_cases req) as [Hfalsy | (sid & Hid & Hne)].
  - rewrite (route_falsy req st Hfalsy) in Hroute.
    destruct (is_handshake req); [| done].
    injection Hroute as _ <- _ _. lia.
  - rewrite (route_truthy req st sid Hid Hne) in Hroute.
    destruct (Js.get (transports st) sid) as [[h0 | name] |] eqn:Hget; try done.
    injection Hroute as <- <- <- <-. apply get_own_iff in Hget. by exists sid.
Qed.

End Outcomes.

(** ** The life of a session *)

Section Lifecycle.
Context {body : Type} (isInitializeRequest : body → bool).
Implicit Types (req hs : request body) (st : state) (evs : list (event (body := body))).

Local Abbreviation route := (route isInitializeRequest).
Local Abbreviation step := (step isInitializeRequest).
Local Abbreviation run := (run isInitializeRequest).
Local Abbreviation is_handshake := (is_handshake isInitializeRequest).

Lemma close_unfold st (h : handle) o :
  wf st → objects st !! h = Some o →
  sdk_close h st =
    match sessionId o with
    | Some sid => set_transports (delete sid) st
    | None => st
    end.
Proof.
  intros Hwf Ho. unfold sdk_close. rewrite Ho.
  destruct (wf_callbacks st Hwf _ _ Ho) as [_ ->]. simpl. rewrite Ho.
  destruct (sessionId o) as [sid |] eqn:Hsid; [| done].
  by rewrite (minted_truthy sid (wf_session_ids st Hwf _ _ _ Ho Hsid)).
Qed.



(** X5.  Closing is idempotent: a transport's [onclose] running a second
    time changes nothing, in any state. *)
Theorem close_idempotent st (h : handle) :
  step (step st (Closes h)) (Closes h) = step st (Closes h).
Proof.
  simpl. unfold sdk_close at 2 3.
  destruct (objects st !! h) as [o |] eqn:Ho.
  - destruct (onclose o) as [[t] |] eqn:Hcb.
    + assert (objects (call_close_callback (Remove_self t) st) = objects st) as Hobj
        by apply objects_call_close_callback.
      unfold sdk_close. rewrite Hobj, Ho, Hcb.
      unfold call_close_callback at 1. rewrite Hobj.
      simpl. destruct (objects st !! t) as [ot |]; [| done].
      destruct (sessionId ot) as [sid |]; [| done].
      destruct (Js.truthy_string sid); [| done].
      unfold set_transports. simpl. f_equal. apply delete_delete_eq.
    + unfold sdk_close. by rewrite Ho, Hcb.
  - unfold sdk_close. by rewrite Ho.
Qed.

(** X6.  Closing one transport touches no entry but its own: in every
    state the process can reach, [onclose] of a transport changes the
    registry at most at that transport's session id and changes nothing
    else; a transport whose id was never minted closes without any effect;
    and a request carrying any other registered id is passed to the same
    transport as before. *)
Theorem close_leaves_other_sessions evs (h : handle) o :
  objects (run init evs) !! h = Some o →
  (∀ k, sessionId o ≠ Some k →
     transports (step (run init evs) (Closes h)) !! k = transports (run init evs) !! k) ∧
  objects (step (run init evs) (Closes h)) = objects (run init evs) ∧
  servers (step (run init evs) (Closes h)) = servers (run init evs) ∧
  allocated (step (run init evs) (Closes h)) = allocated (run init evs) ∧
  (sessionId o = None → step (run init evs) (Closes h) = run init evs) ∧
  (∀ req sid h',
     mcp_session_id req = Some sid → sessionId o ≠ Some sid →
     transports (run init evs) !! sid = Some h' →
     route req (step (run init evs) (Closes h))
     = (step (run init evs) (Closes h), HandleRequest h' req (passed_body req))).
Proof.
  intros Ho. pose proof (wf_reachable isInitializeRequest evs) as Hwf.
  assert (∀ k, sessionId o ≠ Some k →
            transports (step (run init evs) (Closes h)) !! k
            = transports (run init evs) !! k) as Hframe.
  { intros k Hk. simpl. rewrite (close_unfold _ h o Hwf Ho).
    destruct (sessionId o) as [sid |]; [| done]. simpl.
    apply lookup_delete_ne. congruence. }
  split; [done |]. simpl. rewrite (close_unfold _ h o Hwf Ho).
  repeat split; try by destruct (sessionId o).
  intros req sid h' Hid Hne Hreg.
  apply (route_known _ _ _ sid); [done | |].
  - apply minted_truthy. by eapply (wf_keys _ Hwf).
  - rewrite <- Hreg. specialize (Hframe sid Hne). simpl in Hframe.
    by rewrite (close_unfold _ h o Hwf Ho) in Hframe.
Qed.

(** X7.  The transport a handshake constructs is new: in every state the
    process can reach, no transport object and no registry entry refers
    to it before the handshake, and every later handshake is passed to a
    different transport. *)
Theorem handshake_transport_is_fresh evs hs later hs' :
  is_handshake hs = true →
  is_handshake hs' = true →
  objects (run init evs) !! allocated (run init evs) = None ∧
  (∀ sid, transports (run init evs) !! sid ≠ Some (allocated (run init evs))) ∧
  (route hs (run init evs)).2
    = HandleRequest (allocated (run init evs)) hs (Some (req_body hs)) ∧
  ∃ h', allocated (run init evs) < h' ∧
        (route hs' (run init (evs ++ Arrives hs :: later))).2
        = HandleRequest h' hs' (Some (req_body hs')).
Proof.
  intros Hhs Hhs'. pose proof (wf_reachable isInitializeRequest evs) as Hwf.
  assert (objects (run init evs) !! allocated (run init evs) = None) as Hnone.
  { apply eq_None_not_Some. rewrite (wf_allocated _ Hwf). lia. }
  split; [done |]. split.
  { intros sid Hreg%(wf_registered _ Hwf)%(wf_allocated _ Hwf). lia. }
  split; [by rewrite route_handshake |].
  exists (allocated (run init (evs ++ Arrives hs :: later))). split.
  - rewrite run_app.
    change (run (run init evs) (Arrives hs :: later))
      with (run (step (run init evs) (Arrives hs)) later).
    rewrite (allocated_run _ (step (run init evs) (Arrives hs)) later).
    simpl. rewrite route_handshake by done. simpl. lia.
  - by rewrite route_handshake.
Qed.

End Lifecycle.

(** * Properties of the client *)

Section ClientRuns.
Import Client.
Context {R E : Type}.
Implicit Types (s : sdk R E) (env : option string) (tools : list tool_info).

Lemma for_of_perform {A} (l : list A) (g : A → action R E) :
  for_of l (λ x, perform (g x)) = (map g l, inr ()).
Proof.
  induction l as [| x l IH]; [done |].
  simpl. unfold mbind, M_bind. simpl. by rewrite IH.
Qed.

(** The actions up to and including the listing of the tools. *)
Lemma main_unfold env s :
  main env s =
  match new_URL s (serverUrl env) with
  | Some err =>
      ([console_log [Str "Connecting to MCP Streamable HTTP server at"; Str (serverUrl env)]],
       inl err)
  | None =>
  match connect s (serverUrl env) with
  | Some err =>
      ([console_log [Str "Connecting to MCP Streamable HTTP server at"; Str (serverUrl env)];
        client_connect (serverUrl env)],
       inl err)
  | None =>
  match listTools s with
  | inl err =>
      ([console_log [Str "Connecting to MCP Streamable HTTP server at"; Str (serverUrl env)];
        client_connect (serverUrl env);
        console_log [Str "Initialized"];
        client_listTools],
       inl err)
  | inr tools =>
      if has_get_current_time tools then
        match callTool s "get_current_time" with
        | inl err =>
            ([console_log [Str "Connecting to MCP Streamable HTTP server at"; Str (serverUrl env)];
              client_connect (serverUrl env);
              console_log [Str "Initialized"];
              client_listTools;
              console_log [Str "Available tools:"]]
             ++ map tool_line tools
             ++ [client_callTool "get_current_time" []],
             inl err)
        | inr r =>
            ([console_log [Str "Connecting to MCP Streamable HTTP server at"; Str (serverUrl env)];
              client_connect (serverUrl env);
              console_log [Str "Initialized"];
              client_listTools;
              console_log [Str "Available tools:"]]
             ++ map tool_line tools
             ++ [client_callTool "get_current_time" [];
                 console_log [Str "get_current_time result:"; Obj r];
                 client_close],
             settled (close s))
        end
      else
        ([console_log [Str "Connecting to MCP Streamable HTTP server at"; Str (serverUrl env)];
          client_connect (serverUrl env);
          console_log [Str "Initialized"];
          client_listTools;
          console_log [Str "Available tools:"]]
         ++ map tool_line tools
         ++ [console_log [Str "get_current_time tool not found on server"];
             client_close],
         settled (close s))
  end end end.
Proof.
  unfold main, mbind, M_bind. simpl.
  destruct (new_URL s (serverUrl env)); simpl; [done |].
  destruct (connect s (serverUrl env)); simpl; [done |].
  destruct (listTools s) as [err | tools]; simpl; [done |].
  rewrite for_of_perform. simpl.
  destruct (has_get_current_time tools); simpl.
  - destruct (callTool s "get_current_time"); simpl; [done |].
    by rewrite <- ?app_assoc.
  - by rewrite <- ?app_assoc.
Qed.

Lemma has_get_current_time_iff tools :
  has_get_current_time tools = true ↔
  ∃ t, In t tools ∧ name t = "get_current_time".
Proof.
  unfold has_get_current_time. rewrite existsb_exists.
  split; intros (t & Hin & Hname); exists t; split; try done.
  - by apply String.eqb_eq.
  - by apply String.eqb_eq.
Qed.

Lemma tool_lines_no_call tools :
  List.filter is_callTool (map (tool_line (R := R) (E := E)) tools) = [].
Proof. induction tools as [| t tools IH]; [done | by simpl]. Qed.


Lemma in_tool_lines (a : action R E) tools :
  In a (map tool_line tools) → ∃ t, a = tool_line t ∧ In t tools.
Proof. intros (t & <- & Hin)%in_map_iff. eauto. Qed.

(** X8.  The client calls a tool only if it is [get_current_time], with
    no arguments, and exactly when the URL parsed, the connection was
    made and the server listed a tool of that name; it makes the call at
    most once however often the name is listed. *)
Theorem callTool_iff env s tool args :
  (In (client_callTool tool args) (program env s) ↔
   tool = "get_current_time" ∧ args = [] ∧
   new_URL s (serverUrl env) = None ∧ connect s (serverUrl env) = None ∧
   ∃ tools, listTools s = inr tools ∧
            ∃ t, In t tools ∧ name t = "get_current_time") ∧
  (length (List.filter is_callTool (program env s)) ≤ 1)%nat.
Proof.
  unfold program. rewrite main_unfold.
  destruct (new_URL s (serverUrl env)) as [e0 |].
  { simpl. split; [| lia]. split; [| by intros (_ & _ & ? & _)].
    intros [? | [? | [? | []]]]; done. }
  destruct (connect s (serverUrl env)) as [e1 |].
  { simpl. split; [| lia]. split; [| by intros (_ & _ & _ & ? & _)].
    intros [? | [? | [? | [? | []]]]]; done. }
  destruct (listTools s) as [e2 | tools].
  { simpl. split; [| lia]. split; [| by intros (_ & _ & _ & _ & ? & ? & _)].
    intros [? | [? | [? | [? | [? | [? | []]]]]]]; done. }
  destruct (has_get_current_time tools) eqn:Hhas.
  - assert (∃ t, In t tools ∧ name t = "get_current_time") as Hex
      by (by apply has_get_current_time_iff).
    destruct (callTool s "get_current_time") as [e3 | r]; [| destruct (close s) as [e4 |]];
      simpl; rewrite ?List.filter_app, ?tool_lines_no_call; simpl; (split; [| lia]);
      rewrite ?in_app_iff; simpl.
    + split.
      * intros [? | [? | [? | [? | [? | [[H | [H | []]] | [? | [? | []]]]]]]]]; try done.
        { by apply in_tool_lines in H as (t & ? & _). }
        injection H as <- <-. eauto 10.
      * intros (-> & -> & _). tauto.
    + split.
      * intros [? | [? | [? | [? | [? | [[H | [H | [? | [? | []]]]] | [? | [? | []]]]]]]]];
          try done.
        { by apply in_tool_lines in H as (t & ? & _). }
        injection H as <- <-. eauto 10.
      * intros (-> & -> & _). tauto.
    + split.
      * intros [? | [? | [? | [? | [? | [H | [H | [? | [? | []]]]]]]]]]; try done.
        { by apply in_tool_lines in H as (t & ? & _). }
        injection H as <- <-. eauto 10.
      * intros (-> & -> & _). tauto.
  - assert (¬ ∃ t, In t tools ∧ name t = "get_current_time") as Hnex.
    { rewrite <- has_get_current_time_iff. by rewrite Hhas. }
    destruct (close s) as [e4 |];
      simpl; rewrite ?List.filter_app, ?tool_lines_no_call; simpl; (split; [| lia]);
      rewrite ?in_app_iff; simpl.
    + split.
      * intros [? | [? | [? | [? | [? | [[H | [? | [? | []]]] | [? | [? | []]]]]]]]]; try done.
        by apply in_tool_lines in H as (t & ? & _).
      * intros (_ & _ & _ & _ & tools' & [= <-] & Hex). by destruct Hnex.
    + split.
      * intros [? | [? | [? | [? | [? | [H | [? | [? | []]]]]]]]]; try done.
        by apply in_tool_lines in H as (t & ? & _).
      * intros (_ & _ & _ & _ & tools' & [= <-] & Hex). by destruct Hnex.
Qed.

End ClientRuns.

Section ClientFailures.
Import Client.
Context {R E : Type}.
Implicit Types (s : sdk R E) (env : option string) (tools : list tool_info).

Lemma last_tool_lines_app (pre : list (action R E)) tools a :
  last (pre ++ map tool_line tools ++ [a]) = Some a.
Proof. by rewrite !app_assoc, last_snoc. Qed.




(** X10.  [main] reaches its own call of [client.close()] exactly when
    every step before it succeeded: after a failed URL, connection,
    listing or tool call, [main] does not make that call.  (What the SDK
    does to the connection inside a failing call is not part of the
    statement.) *)
Theorem close_attempted_iff env s :
  In client_close (program env s) ↔
  new_URL s (serverUrl env) = None ∧ connect s (serverUrl env) = None ∧
  ∃ tools, listTools s = inr tools ∧
           (has_get_current_time tools = true →
            ∃ r, callTool s "get_current_time" = inr r).
Proof.
  unfold program. rewrite main_unfold.
  destruct (new_URL s (serverUrl env)) as [e0 |].
  { simpl. split; [| by intros (? & _)]. intros [? | [? | [? | []]]]; done. }
  destruct (connect s (serverUrl env)) as [e1 |].
  { simpl. split; [| by intros (_ & ? & _)].
    intros [? | [? | [? | [? | []]]]]; done. }
  destruct (listTools s) as [e2 | tools].
  { simpl. split; [| by intros (_ & _ & ? & ? & _)].
    intros [? | [? | [? | [? | [? | [? | []]]]]]]; done. }
  destruct (has_get_current_time tools) eqn:Hhas.
  - destruct (callTool s "get_current_time") as [e3 | r].
    + simpl. rewrite ?in_app_iff. simpl. split.
      * intros [? | [? | [? | [? | [? | [[H | [? | []]] | [? | [? | []]]]]]]]]; try done.
        by apply in_tool_lines in H as (t & ? & _).
      * intros (_ & _ & tools' & [= <-] & Hcall). by destruct (Hcall Hhas).
    + split; [by eauto 10 |]. intros _.
      destruct (close s); simpl; rewrite ?in_app_iff; simpl; tauto.
  - split.
    + intros _. repeat split; try done. exists tools. split; [done | by rewrite Hhas].
    + intros _. destruct (close s); simpl; rewrite ?in_app_iff; simpl; tauto.
Qed.

End ClientFailures.

(** ** The client against this server *)

(** X11.  Run against a server of this repository, the client finds the
    tool it looks for: when the listing is what any server constructed by
    a handshake has registered and every call succeeds, the client prints
    the one tool, calls [get_current_time] without arguments, prints the
    result and closes. *)
Theorem client_calls_the_server_tool {body R E : Type}
    (isInitializeRequest : body → bool) (evs : list (event (body := body)))
    i srv env (s : Client.sdk R E) r :
  servers (run isInitializeRequest init evs) !! i = Some srv →
  Client.new_URL s (Client.serverUrl env) = None →
  Client.connect s (Client.serverUrl env) = None →
  Client.listTools s = inr (map Client.listed (server_tools srv)) →
  Client.callTool s "get_current_time" = inr r →
  Client.close s = None →
  Client.program env s =
    [ Client.console_log [Client.Str "Connecting to MCP Streamable HTTP server at";
                          Client.Str (Client.serverUrl env)];
      Client.client_connect (Client.serverUrl env);
      Client.console_log [Client.Str "Initialized"];
      Client.client_listTools;
      Client.console_log [Client.Str "Available tools:"];
      Client.console_log
        [Client.Str "- get_current_time: Return current server time as ISO 8601 string."];
      Client.client_callTool "get_current_time" [];
      Client.console_log [Client.Str "get_current_time result:"; Client.Obj r];
      Client.client_close ].
Proof.
  intros Hsrv Hurl Hconnect Hlist Hcall Hclose.
  rewrite (wf_servers _ (wf_reachable isInitializeRequest evs) _ _ Hsrv) in Hlist.
  unfold Client.program. rewrite main_unfold, Hurl, Hconnect, Hlist. simpl.
  by rewrite Hcall, Hclose.
Qed.

(** X12.  A handshake disturbs no session that exists: in every state the
    process can reach it leaves the registry, every transport object and
    every server as they were, and a request carrying a registered id is
    passed to the same transport after it as before. *)
Theorem handshake_leaves_sessions {body : Type}
    (isInitializeRequest : body → bool) (evs : list (event (body := body)))
    (hs : request body) :
  is_handshake isInitializeRequest hs = true →
  transports (run isInitializeRequest init (evs ++ [Arrives hs]))
    = transports (run isInitializeRequest init evs) ∧
  (∀ (h : handle) o,
     objects (run isInitializeRequest init evs) !! h = Some o →
     objects (run isInitializeRequest init (evs ++ [Arrives hs])) !! h = Some o) ∧
  (∀ i srv,
     servers (run isInitializeRequest init evs) !! i = Some srv →
     servers (run isInitializeRequest init (evs ++ [Arrives hs])) !! i = Some srv) ∧
  (∀ req sid h',
     mcp_session_id req = Some sid →
     transports (run isInitializeRequest init evs) !! sid = Some h' →
     route isInitializeRequest req (run isInitializeRequest init (evs ++ [Arrives hs]))
     = (run isInitializeRequest init (evs ++ [Arrives hs]),
        HandleRequest h' req (passed_body req))).
Proof.
  intros Hhs. rewrite run_snoc.
  pose proof (wf_reachable isInitializeRequest evs) as Hwf.
  simpl. rewrite (route_handshake _ hs _ Hhs). simpl.
  split; [done |]. split; [| split].
  - intros h o Ho. rewrite lookup_insert_ne; [done |].
    intros <-. assert (is_Some (objects (run isInitializeRequest init evs)
                                  !! allocated (run isInitializeRequest init evs)))
      as Hsome%(wf_allocated _ Hwf) by eauto. lia.
  - intros i srv Hi. by apply lookup_app_l_Some.
  - intros req sid h' Hid Hreg.
    apply (route_known _ _ _ sid); [done | | done].
    apply minted_truthy. by eapply (wf_keys _ Hwf).
Qed.

(** ** The further properties at concrete inputs *)

Lemma existing_transport_needs_its_id_witness :
  ∃ sid,
    Some "00000000-0000-4000-8000-000000000000" = Some sid ∧ sid ≠ "" ∧
    transports
      (run (λ b : bool, b) init
         [Arrives (Request POST None true); SessionInitialized 0 []])
      !! sid = Some 0 ∧
    run (λ b : bool, b) init
      [Arrives (Request POST None true); SessionInitialized 0 []]
    = run (λ b : bool, b) init
        [Arrives (Request POST None true); SessionInitialized 0 []] ∧
    Request DELETE (Some "00000000-0000-4000-8000-000000000000") false
    = Request DELETE (Some "00000000-0000-4000-8000-000000000000") false ∧
    (None : option bool) = None.
Proof.
  apply (existing_transport_needs_its_id (λ b : bool, b)
           (Request DELETE (Some "00000000-0000-4000-8000-000000000000") false)
           (run (λ b : bool, b) init
              [Arrives (Request POST None true); SessionInitialized 0 []])
           (run (λ b : bool, b) init
              [Arrives (Request POST None true); SessionInitialized 0 []])
           0
           (Request DELETE (Some "00000000-0000-4000-8000-000000000000") false)
           None).
  - vm_compute. reflexivity.
  - vm_compute. lia.
Defined.


Lemma close_leaves_other_sessions_witness :
  objects
    (step (λ b : bool, b)
       (run (λ b : bool, b) init
          [Arrives (Request POST None true); SessionInitialized 0 [];
           Arrives (Request POST None true); SessionInitialized 1 [1%N]])
       (Closes 0))
  = objects
      (run (λ b : bool, b) init
         [Arrives (Request POST None true); SessionInitialized 0 [];
          Arrives (Request POST None true); SessionInitialized 1 [1%N]]).
Proof.
  apply (close_leaves_other_sessions (λ b : bool, b)
           [Arrives (Request POST None true); SessionInitialized 0 [];
            Arrives (Request POST None true); SessionInitialized 1 [1%N]]
           0
           {| sessionId := Some "00000000-0000-4000-8000-000000000000";
              onsessioninitialized := Some (Register_self 0);
              onclose := Some (Remove_self 0) |}).
  vm_compute. reflexivity.
Defined.

Lemma handshake_transport_is_fresh_witness :
  ∃ h', 0 < h' ∧
        (route (λ b : bool, b) (Request POST (Some "") true)
           (run (λ b : bool, b) init
              ([] ++ Arrives (Request POST None true) :: [Closes 0]))).2
        = HandleRequest h' (Request POST (Some "") true) (Some true).
Proof.
  apply (handshake_transport_is_fresh (λ b : bool, b) []
           (Request POST None true) [Closes 0] (Request POST (Some "") true)
           eq_refl eq_refl).
Defined.

Lemma handshake_leaves_sessions_witness :
  transports
    (run (λ b : bool, b) init
       ([Arrives (Request POST None true); SessionInitialized 0 []]
        ++ [Arrives (Request POST None true)]))
  = transports
      (run (λ b : bool, b) init
         [Arrives (Request POST None true); SessionInitialized 0 []]).
Proof.
  apply (handshake_leaves_sessions (λ b : bool, b)
           [Arrives (Request POST None true); SessionInitialized 0 []]
           (Request POST None true) eq_refl).
Defined.

Lemma client_calls_the_server_tool_witness :
  Client.program None
    {| Client.new_URL := λ _, None;
       Client.connect := λ _, None;
       Client.listTools := inr [Client.listed get_current_time_tool];
       Client.callTool := λ _, inr "2026-01-01T00:00:00.000Z";
       Client.close := (None : option string) |}
  = [ Client.console_log [Client.Str "Connecting to MCP Streamable HTTP server at";
                          Client.Str "http://localhost:3000/mcp"];
      Client.client_connect "http://localhost:3000/mcp";
      Client.console_log [Client.Str "Initialized"];
      Client.client_listTools;
      Client.console_log [Client.Str "Available tools:"];
      Client.console_log
        [Client.Str "- get_current_time: Return current server time as ISO 8601 string."];
      Client.client_callTool "get_current_time" [];
      Client.console_log [Client.Str "get_current_time result:";
                          Client.Obj "2026-01-01T00:00:00.000Z"];
      Client.client_close ].
Proof.
  apply (client_calls_the_server_tool (λ b : bool, b)
           [Arrives (Request POST None true)] 0 (session_server 0) None
           {| Client.new_URL := λ _, None;
              Client.connect := λ _, None;
              Client.listTools := inr [Client.listed get_current_time_tool];
              Client.callTool := λ _, inr "2026-01-01T00:00:00.000Z";
              Client.close := (None : option string) |}
           "2026-01-01T00:00:00.000Z");
    reflexivity.
Defined.
